(** * Recommendation scoring and ranking of [actions/actions.py]

    A shallow embedding of [calculate_distance] and of
    [ActionSearchRealEstate.run]: the reference coordinates read from the
    tracker, the per-record scoring loop, the sort of the recommendations and
    the text of the response.

    Data, as the code has it:
    - a binding row [result] of the query is a Python dict from variable name
      to a binding; only the binding's ['value'] is ever read, so a row is a
      [gmap string string] from variable name to that value, and
      ['geo' in result] is [result !! "geo" ≠ None];
    - Python [str] is [string] (UTF-8 bytes; the separators [","] and [", "]
      are ASCII, so splitting bytes and splitting code points agree);
    - Python [int] is [Z]; Python [float] is IEEE binary64, Rocq's primitive
      [float];
    - an exception that leaves a block is the [None] of an [option]. *)

From Stdlib Require Import PrimFloat FloatOps Uint63.
From stdpp Require Import gmap strings list pretty sorting.

Local Open Scope Z_scope.

(** ** Strings *)

(** The line feed of the ["\n"] escapes. *)
Definition LF : string :=
  String (Ascii.Ascii false true false true false false false false) "".

(** [s.split(sep)] for a non-empty [sep]: the occurrences of [sep] are found
    from the left and do not overlap.  [skip] counts the characters of a
    separator that is being stepped over, [cur] is the item read so far. *)
Fixpoint split_go (sep : string) (skip : nat) (cur s : string) : list string :=
  match s with
  | EmptyString => [cur]
  | String c s' =>
      match skip with
      | S k => split_go sep k cur s'
      | O =>
          if String.prefix sep s
          then cur :: split_go sep (Nat.pred (String.length sep)) "" s'
          else split_go sep O (cur +:+ String c "") s'
      end
  end.

Definition split (sep s : string) : list string := split_go sep O "" s.

(** ** The Python runtime the code calls into

    What [float(str)], the C library behind [math] and the [.1f] format
    compute is not fixed by the source; they are the operations of a class.
    [float_of_str] is [None] where [float] raises [ValueError]. *)
Class PyRuntime := {
  float_of_str : string → option float;
  libm_sin : float → float;
  libm_cos : float → float;
  libm_atan2 : float → float → float;
  libm_pow : float → float → float;
  format_1f : float → string
}.

Module math.

Definition pi : float := 0x1.921fb54442d18p+1%float.

(** [math.radians]: multiplication by the constant [pi / 180]. *)
Definition radians (x : float) : float := (x * (pi / 180))%float.

(** The wrapper of the one-argument functions of [math]: [ValueError]
    when the result is a NaN that the argument was not, or an infinity
    for a finite argument. *)
Definition math_1 (f : float → float) (x : float) : option float :=
  let r := f x in
  if is_nan r && negb (is_nan x) then None
  else if is_infinity r && is_finite x then None
  else Some r.

Definition sin `{PyRuntime} : float → option float := math_1 libm_sin.
Definition cos `{PyRuntime} : float → option float := math_1 libm_cos.
Definition sqrt : float → option float := math_1 PrimFloat.sqrt.

(** [math.atan2] raises only when the C function gives a NaN for arguments
    that are numbers, and [x ** 2] only when the square of a finite float
    is infinite, which the square of a sine is not: both are total here. *)
Definition atan2 `{PyRuntime} (y x : float) : float := libm_atan2 y x.
Definition pow2 `{PyRuntime} (x : float) : float := libm_pow x 2%float.

End math.

(** ** The reference coordinates *)

(** [x or d] on an optional string: [None] and [""] are falsy.  A slot of
    the tracker that was never set reads as [None]. *)
Definition py_or (x : option string) (d : string) : string :=
  match x with
  | None => d
  | Some EmptyString => d
  | Some s => s
  end.

Definition user_lat (work_latitude : option string) : string :=
  py_or work_latitude "10.848".
Definition user_lon (work_longitude : option string) : string :=
  py_or work_longitude "106.787".

(** ** One iteration of the scoring loop *)

(** The two variables of an iteration, [score] and [reasons]. *)
Definition tally : Type := Z * list string.

(** The dict appended to [recommendations]. *)
Record project_info := {
  project_name : string;
  type : string;
  location : string;
  price : string;
  rooms : string;
  size : string;
  score : Z;
  reasons : list string
}.

Definition facilities_step (result : gmap string string) (st : tally) : tally :=
  match result !! "all_facilities" with
  | None => st
  | Some value =>
      let facilities := split ", " value in
      (st.1 + Z.of_nat (length facilities),
       st.2 ++ map (λ facility, "✨ Có " +:+ facility) facilities)
  end.

Definition surroundings_step (result : gmap string string) (st : tally) : tally :=
  match result !! "all_surroundings" with
  | None => st
  | Some value =>
      let surroundings := split ", " value in
      (st.1 + Z.of_nat (length surroundings),
       st.2 ++ map (λ surrounding, "🏢 Gần " +:+ surrounding) surroundings)
  end.

(** [result.get(k, {}).get('value', d)] *)
Definition get_value (result : gmap string string) (k d : string) : string :=
  default d (result !! k).

Definition make_info (result : gmap string string) (st : tally) : project_info :=
  {| project_name := get_value result "project_name" "N/A";
     type := get_value result "type_name" "N/A";
     location := get_value result "ward_name" "" +:+ ", " +:+
                 get_value result "area_name" "" +:+ ", " +:+
                 get_value result "region_name" "";
     price := get_value result "price" "N/A";
     rooms := get_value result "rooms" "N/A";
     size := get_value result "size" "N/A";
     score := st.1;
     reasons := st.2 |}.

Section Scoring.
Context `{PyRuntime}.

(** [calculate_distance].  The arguments are floats already, so the
    [float(...)] calls of the body are the identity.  [None] is a
    [ValueError] of [math]. *)
Definition calculate_distance (lat1 lon1 lat2 lon2 : float) : option float :=
  let R := 6371%float in
  let lat1 := math.radians lat1 in
  let lon1 := math.radians lon1 in
  let lat2 := math.radians lat2 in
  let lon2 := math.radians lon2 in
  let dlat := (lat2 - lat1)%float in
  let dlon := (lon2 - lon1)%float in
  sin_dlat ← math.sin (dlat / 2)%float;
  cos_lat1 ← math.cos lat1;
  cos_lat2 ← math.cos lat2;
  sin_dlon ← math.sin (dlon / 2)%float;
  let a := (math.pow2 sin_dlat + cos_lat1 * cos_lat2 * math.pow2 sin_dlon)%float in
  sqrt_a ← math.sqrt a;
  sqrt_1a ← math.sqrt (1 - a)%float;
  let c := (2 * math.atan2 sqrt_a sqrt_1a)%float in
  let distance := (R * c)%float in
  Some distance.

(** [f"🚶 Cách nơi làm việc {distance:.1f}km"] *)
Definition distance_reason (distance : float) : string :=
  "🚶 Cách nơi làm việc " +:+ format_1f distance +:+ "km".

(** The block under [if 'geo' in result]; [None] is the [continue] of the
    handler of [ValueError]. *)
Definition geo_step (user_lat user_lon : string)
    (result : gmap string string) (st : tally) : option tally :=
  match result !! "geo" with
  | None => Some st
  | Some value =>
      let geo_parts := split "," value in
      match geo_parts with
      | [lat; lon] =>
          ulat ← float_of_str user_lat;
          ulon ← float_of_str user_lon;
          flat ← float_of_str lat;
          flon ← float_of_str lon;
          distance ← calculate_distance ulat ulon flat flon;
          if (distance <=? 5)%float
          then Some (st.1 + 1, st.2 ++ [distance_reason distance])
          else Some st
      | _ => Some st
      end
  end.

(** The body of [for result in ...]: [None] when the iteration ends in
    [continue], else the dict it appends. *)
Definition process_result (user_lat user_lon : string)
    (result : gmap string string) : option project_info :=
  st ← geo_step user_lat user_lon result (0, []);
  let st := facilities_step result st in
  let st := surroundings_step result st in
  Some (make_info result st).

Definition loop_body (user_lat user_lon : string)
    (recommendations : list project_info) (result : gmap string string)
    : list project_info :=
  match process_result user_lat user_lon result with
  | Some info => recommendations ++ [info]
  | None => recommendations
  end.

Definition recommendations (user_lat user_lon : string)
    (bindings : list (gmap string string)) : list project_info :=
  fold_left (loop_body user_lat user_lon) bindings [].

End Scoring.

(** ** [list.sort(key=..., reverse=True)]

    The sort of Python lists is stable; with [reverse=True] the list is
    reversed, sorted ascending and reversed again, which keeps the input
    order of items with equal keys.  The ascending sort is an insertion
    sort: an item goes in front of the first item whose key is not smaller. *)
Fixpoint insert_by {A} (key : A → Z) (x : A) (l : list A) : list A :=
  match l with
  | [] => [x]
  | y :: l' => if key x <=? key y then x :: y :: l' else y :: insert_by key x l'
  end.

Fixpoint stable_sort {A} (key : A → Z) (l : list A) : list A :=
  match l with
  | [] => []
  | x :: l' => insert_by key x (stable_sort key l')
  end.

Definition list_sort {A} (key : A → Z) (reverse : bool) (l : list A) : list A :=
  if reverse
  then list.reverse (stable_sort key (list.reverse l))
  else stable_sort key l.

(** The order of the keys, and the items of one key. *)
Definition ascending {A} (key : A → Z) (a b : A) : Prop := key a ≤ key b.
Definition descending {A} (key : A → Z) (a b : A) : Prop := key b ≤ key a.
Definition has_key {A} (key : A → Z) (k : Z) (a : A) : Prop := key a = k.

#[global] Instance has_key_dec {A} (key : A → Z) k a : Decision (has_key key k a).
Proof. unfold has_key. apply _. Defined.

(** ** The response *)

Definition HEADER : string := "🏘️ Danh sách bất động sản được đề xuất:" +:+ LF +:+ LF.
Definition NO_RESULTS : string :=
  "❌ Không tìm thấy bất động sản nào phù hợp với yêu cầu của bạn.".
Definition ERROR_PREFIX : string := "❌ Lỗi khi truy vấn dữ liệu bất động sản: ".

(** [for reason in rec['reasons']: response += f"  {reason}\n"] *)
Definition append_reason (response reason : string) : string :=
  response +:+ ("  " +:+ reason +:+ LF).

(** The body of [for rec in recommendations[:5]]. *)
Definition append_rec (response : string) (rec : project_info) : string :=
  let response := response +:+
    ("🏠 " +:+ project_name rec +:+ " (" +:+ type rec +:+ ")" +:+ LF) in
  let response := response +:+ ("📍 Vị trí: " +:+ location rec +:+ LF) in
  let response := response +:+ ("💰 Giá: " +:+ price rec +:+ " VND" +:+ LF) in
  let response := response +:+ ("🛏️ Số phòng ngủ: " +:+ rooms rec +:+ LF) in
  let response := response +:+ ("📐 Diện tích: " +:+ size rec +:+ "m²" +:+ LF) in
  let response := response +:+ ("📊 Điểm đánh giá: " +:+ pretty (score rec) +:+ LF) in
  let response := response +:+ ("📝 Lý do đề xuất:" +:+ LF) in
  let response := fold_left append_reason (reasons rec) response in
  response +:+ LF.

(** From the sort to the text handed to [dispatcher.utter_message]. *)
Definition build_response (recommendations : list project_info) : string :=
  let recommendations := list_sort score true recommendations in
  let response := fold_left append_rec (take 5 recommendations) HEADER in
  match recommendations with
  | [] => NO_RESULTS
  | _ :: _ => response
  end.

(** ** [ActionSearchRealEstate.run]

    The arguments are the two slots of the tracker and what [fetch_data]
    gave: the text of the exception it raised, or the rows under
    [results["results"]["bindings"]].  The value is the text of the one
    message uttered. *)
Definition run `{PyRuntime} (work_latitude work_longitude : option string)
    (fetched : string + list (gmap string string)) : string :=
  let user_lat := user_lat work_latitude in
  let user_lon := user_lon work_longitude in
  match fetched with
  | inl e => ERROR_PREFIX +:+ e
  | inr bindings => build_response (recommendations user_lat user_lon bindings)
  end.

(** ** The quantities the specification speaks of *)

Section Quantities.
Context `{PyRuntime}.

(** The distance from the reference to the coordinate of a row: defined
    when the geo value has exactly two components, the four strings are
    numbers and the distance is computed without error. *)
Definition parsed_distance (user_lat user_lon : string)
    (result : gmap string string) : option float :=
  value ← result !! "geo";
  match split "," value with
  | [lat; lon] =>
      ulat ← float_of_str user_lat;
      ulon ← float_of_str user_lon;
      flat ← float_of_str lat;
      flon ← float_of_str lon;
      calculate_distance ulat ulon flat flon
  | _ => None
  end.

Definition within_5km (user_lat user_lon : string)
    (result : gmap string string) : bool :=
  match parsed_distance user_lat user_lon result with
  | Some distance => (distance <=? 5)%float
  | None => false
  end.

(** A geo value that has two components which do not give a distance:
    one of the strings is not a number, or [math] refuses a value. *)
Definition geo_raises (user_lat user_lon : string)
    (result : gmap string string) : Prop :=
  ∃ value lat lon,
    result !! "geo" = Some value ∧ split "," value = [lat; lon] ∧
    parsed_distance user_lat user_lon result = None.

End Quantities.

(** The items of the two aggregated bindings; none when the binding is
    absent. *)
Definition facility_items (result : gmap string string) : list string :=
  match result !! "all_facilities" with
  | Some value => split ", " value
  | None => []
  end.

Definition surrounding_items (result : gmap string string) : list string :=
  match result !! "all_surroundings" with
  | Some value => split ", " value
  | None => []
  end.

(** The two aggregated bindings that are split into items, with the
    step of the loop that reads each and the label of its reasons. *)
Inductive items_field : Type := Facilities | Surroundings.

Definition field_key (f : items_field) : string :=
  match f with
  | Facilities => "all_facilities"
  | Surroundings => "all_surroundings"
  end.

Definition field_label (f : items_field) : string :=
  match f with
  | Facilities => "✨ Có "
  | Surroundings => "🏢 Gần "
  end.

Definition field_step (f : items_field) : gmap string string → tally → tally :=
  match f with
  | Facilities => facilities_step
  | Surroundings => surroundings_step
  end.

Definition field_items (f : items_field) : gmap string string → list string :=
  match f with
  | Facilities => facility_items
  | Surroundings => surrounding_items
  end.

(** The text of one entry of the response, and of a list of entries. *)
Definition entry_text (rec : project_info) : string := append_rec "" rec.

Definition entries_text (recs : list project_info) : string :=
  foldr (λ rec text, entry_text rec +:+ text) "" recs.

(** The invariant between the score and the reasons: of an iteration, and
    of a recommendation. *)
Definition tally_ok (st : tally) : Prop := st.1 = Z.of_nat (length st.2).

Definition score_is_reason_count (rec : project_info) : Prop :=
  score rec = Z.of_nat (length (reasons rec)).


(** ** The bindings that are read, and the commas of a geo value *)

(** The bindings of a row that an iteration looks up; the query selects
    more of them (the introduction, the street, the investor, the toilets,
    the images, ...). *)
Definition read_keys : list string :=
  ["geo"; "all_facilities"; "all_surroundings"; "project_name"; "type_name";
   "ward_name"; "area_name"; "region_name"; "price"; "rooms"; "size"].

(** The character of the separator [","], and the number of times a
    character occurs in a string. *)
Definition COMMA : Ascii.ascii :=
  Ascii.Ascii false false true true false true false false.

Fixpoint occurrences (a : Ascii.ascii) (s : string) : nat :=
  match s with
  | EmptyString => O
  | String c s' => ((if Ascii.ascii_dec a c then 1 else 0) + occurrences a s')%nat
  end.

(** ** A runtime to run the model on concrete rows

    An executable instance of [PyRuntime] for the examples below: decimal
    literals without exponent for [float_of_str], truncated series for the
    C library, one rounded decimal for the format.  The theorems hold for
    every runtime; this one only serves to evaluate the definitions. *)
Module Sample.

Definition float_of_Z (z : Z) : float :=
  if z <? 0 then (- of_uint63 (Uint63.of_Z (- z)))%float
  else of_uint63 (Uint63.of_Z z).

Fixpoint digits_go (acc : Z) (s : string) : option Z :=
  match s with
  | EmptyString => Some acc
  | String c s' =>
      let n := Z.of_nat (Ascii.nat_of_ascii c) in
      if (48 <=? n) && (n <=? 57) then digits_go (10 * acc + (n - 48)) s' else None
  end.

Definition digits (s : string) : option Z :=
  match s with
  | EmptyString => None
  | _ => digits_go 0 s
  end.

Definition unsigned_of_str (s : string) : option float :=
  match split "." s with
  | [i] => float_of_Z <$> digits i
  | [i; f] =>
      n ← digits i;
      m ← digits f;
      let scale := 10 ^ Z.of_nat (String.length f) in
      Some (float_of_Z (n * scale + m) / float_of_Z scale)%float
  | _ => None
  end.

Definition parse_decimal (s : string) : option float :=
  match s with
  | String c s' =>
      if (Ascii.nat_of_ascii c =? 45)%nat
      then (λ x, (- x)%float) <$> unsigned_of_str s'
      else unsigned_of_str s
  | EmptyString => None
  end.

Definition sin (x : float) : float :=
  let x2 := (x * x)%float in
  (x * (1 - x2 / 6 * (1 - x2 / 20 * (1 - x2 / 42))))%float.

Definition cos (x : float) : float :=
  let x2 := (x * x)%float in
  (1 - x2 / 2 * (1 - x2 / 12 * (1 - x2 / 30)))%float.

Definition atan (t : float) : float :=
  let t2 := (t * t)%float in
  (t * (1 - t2 * (1 / 3 - t2 * (1 / 5 - t2 / 7))))%float.

Definition atan2 (y x : float) : float :=
  if (y <=? x)%float then atan (y / x) else (math.pi / 2 - atan (x / y))%float.

Definition pow (x y : float) : float :=
  if (y =? 2)%float then (x * x)%float else nan.

(** One decimal, for a float that is not negative. *)
Definition one_decimal (x : float) : string :=
  match FloatOps.Prim2SF x with
  | SpecFloat.S754_finite false m e =>
      let tenths :=
        if 0 <=? e then Z.pos m * 2 ^ e * 10
        else (Z.pos m * 20 + 2 ^ (- e)) / 2 ^ (1 - e) in
      pretty (tenths / 10) +:+ "." +:+ pretty (tenths mod 10)
  | SpecFloat.S754_zero _ => "0.0"
  | _ => "nan"
  end.

Definition runtime : PyRuntime :=
  Build_PyRuntime parse_decimal sin cos atan2 pow one_decimal.

(** Rows to run the loop on: [row_A] is 0.4 km from the default
    reference and [row_far] some 100 km; the geo of [row_text] and of
    [row_bare_text] has two components that are not numbers, that of
    [row_one] has one component; [row_empty] has both aggregated bindings
    present and empty. *)
Definition row_A : gmap string string :=
  {[ "project_name" := "A"; "geo" := "10.85,106.79";
     "all_facilities" := "Pool, Gym"; "all_surroundings" := "Park" ]}.
Definition row_B : gmap string string :=
  {[ "project_name" := "B" ]}.
Definition row_far : gmap string string :=
  {[ "project_name" := "Far"; "geo" := "11.5,107.5"; "all_facilities" := "Pool" ]}.
Definition row_text : gmap string string :=
  {[ "project_name" := "T"; "geo" := "abc,def"; "all_facilities" := "Pool" ]}.
Definition row_one : gmap string string :=
  {[ "project_name" := "O"; "geo" := "10.85"; "all_facilities" := "Pool" ]}.
Definition row_bare_text : gmap string string :=
  {[ "project_name" := "U"; "geo" := "abc,def" ]}.
Definition row_empty : gmap string string :=
  {[ "project_name" := "E"; "all_facilities" := ""; "all_surroundings" := "" ]}.

(** What the loop appends for [row_A] and for [row_empty]. *)
Definition info_A : project_info :=
  {| project_name := "A"; type := "N/A"; location := ", , ";
     price := "N/A"; rooms := "N/A"; size := "N/A"; score := 4;
     reasons := ["🚶 Cách nơi làm việc 0.4km"; "✨ Có Pool"; "✨ Có Gym";
                 "🏢 Gần Park"] |}.
Definition info_empty : project_info :=
  {| project_name := "E"; type := "N/A"; location := ", , ";
     price := "N/A"; rooms := "N/A"; size := "N/A"; score := 2;
     reasons := ["✨ Có "; "🏢 Gần "] |}.

(** [row_A] with a binding that the loop does not read, and a list of
    recommendations in descending order of the scores. *)
Definition row_A_toilets : gmap string string := <["toilets" := "2"]> row_A.
Definition infos_sorted : list project_info := [info_A; info_empty].

(** What the loop appends for [row_far]. *)
Definition info_far : project_info :=
  {| project_name := "Far"; type := "N/A"; location := ", , ";
     price := "N/A"; rooms := "N/A"; size := "N/A"; score := 1;
     reasons := ["✨ Có Pool"] |}.

End Sample.


(** ** Two points on opposite sides of the globe

    The coordinates (-7.36, 57.3173) and (7.36, -122.6827), as the floats
    that [float] gives for these strings, and what the C library (glibc)
    returns at the six places where [calculate_distance] calls it for
    them.  [runtime] is [Sample.runtime] with these values at these
    arguments. *)
Module Antipodal.

Definition lat1 : float := (-0x1.d70a3d70a3d71p+2)%float.
Definition lon1 : float := 0x1.ca89d495182aap+5%float.
Definition lat2 : float := 0x1.d70a3d70a3d71p+2%float.
Definition lon2 : float := (-0x1.eabb15b573eabp+6)%float.

(** [dlat / 2] and [dlon / 2] of the body. *)
Definition half_dlat : float := ((math.radians lat2 - math.radians lat1) / 2)%float.
Definition half_dlon : float := ((math.radians lon2 - math.radians lon1) / 2)%float.

Definition SIN_HALF_DLAT : float := 0x1.065afeeb46c2cp-3%float.
Definition SIN_HALF_DLON : float := (-1)%float.
Definition COS_LAT : float := 0x1.fbc81390bdb00p-1%float.
Definition SQUARE_SIN_HALF_DLAT : float := 0x1.0cde6221d01c2p-6%float.
Definition SQUARE_SIN_HALF_DLON : float := 1%float.

Definition sin (x : float) : float :=
  if (x =? half_dlat)%float then SIN_HALF_DLAT
  else if (x =? half_dlon)%float then SIN_HALF_DLON
  else Sample.sin x.

Definition cos (x : float) : float :=
  if (x =? math.radians lat1)%float || (x =? math.radians lat2)%float then COS_LAT
  else Sample.cos x.

Definition pow (x y : float) : float :=
  if (x =? SIN_HALF_DLAT)%float && (y =? 2)%float then SQUARE_SIN_HALF_DLAT
  else if (x =? SIN_HALF_DLON)%float && (y =? 2)%float then SQUARE_SIN_HALF_DLON
  else Sample.pow x y.

Definition runtime : PyRuntime :=
  Build_PyRuntime Sample.parse_decimal sin cos Sample.atan2 pow Sample.one_decimal.

End Antipodal.

(** * Properties *)

(** ** The sort *)

Section Sorting.
Context {A : Type} (key : A → Z).

Abbreviation ascending := (ascending key).
Abbreviation descending := (descending key).
Abbreviation has_key := (has_key key).

Lemma insert_by_Permutation x l : insert_by key x l ≡ₚ x :: l.
Proof.
  induction l as [|y l IH]; simpl; [done|].
  destruct (key x <=? key y); [done|].
  rewrite IH. apply Permutation_swap.
Qed.

Lemma stable_sort_Permutation l : stable_sort key l ≡ₚ l.
Proof.
  induction l as [|x l IH]; simpl; [done|].
  by rewrite insert_by_Permutation, IH.
Qed.

Lemma insert_by_Sorted x l :
  Sorted ascending l → Sorted ascending (insert_by key x l).
Proof.
  induction 1 as [|y l Hl IH Hy]; simpl.
  { repeat constructor. }
  destruct (Z.leb_spec (key x) (key y)) as [Hle|Hlt].
  - repeat constructor; done.
  - constructor; [done|].
    destruct Hy as [|z l Hyz]; simpl.
    + constructor. unfold ascending. lia.
    + destruct (key x <=? key z); constructor; unfold ascending; lia || done.
Qed.

Lemma stable_sort_Sorted l : Sorted ascending (stable_sort key l).
Proof.
  induction l; simpl; [constructor|by apply insert_by_Sorted].
Qed.

(** An item is put in front of the items of its own key: the items that
    it passes have a smaller key. *)
Lemma filter_insert_by k x l :
  filter (has_key k) (insert_by key x l) = filter (has_key k) (x :: l).
Proof.
  induction l as [|y l IH]; simpl; [done|].
  destruct (Z.leb_spec (key x) (key y)) as [Hle|Hlt]; [done|].
  rewrite (filter_cons _ y), IH, !filter_cons.
  destruct (decide (has_key k y)) as [Hy|Hy], (decide (has_key k x)) as [Hx|Hx];
    try done.
  unfold has_key in *. lia.
Qed.

Lemma filter_stable_sort k l :
  filter (has_key k) (stable_sort key l) = filter (has_key k) l.
Proof.
  induction l as [|x l IH]; simpl; [done|].
  by rewrite filter_insert_by, !filter_cons, IH.
Qed.

Lemma list_sort_Permutation reverse l : list_sort key reverse l ≡ₚ l.
Proof.
  destruct reverse; simpl.
  - by rewrite reverse_Permutation, stable_sort_Permutation, reverse_Permutation.
  - apply stable_sort_Permutation.
Qed.

Lemma list_sort_ascending l : Sorted ascending (list_sort key false l).
Proof. apply stable_sort_Sorted. Qed.

Lemma list_sort_descending l : StronglySorted descending (list_sort key true l).
Proof.
  apply Sorted_StronglySorted.
  { intros a b c. unfold descending. lia. }
  apply (Sorted_reverse ascending), stable_sort_Sorted.
Qed.

(** Stability, in both directions of the sort: the items of one key are
    in the order of the input. *)
Lemma filter_list_sort reverse k l :
  filter (has_key k) (list_sort key reverse l) = filter (has_key k) l.
Proof.
  destruct reverse; simpl.
  - by rewrite filter_reverse, filter_stable_sort, filter_reverse, reverse_involutive.
  - apply filter_stable_sort.
Qed.

Lemma list_sort_nil_inv reverse l : list_sort key reverse l = [] → l = [].
Proof.
  intros Hnil. apply Permutation_nil_r.
  by rewrite <-Hnil, list_sort_Permutation.
Qed.

(** A list in descending order of the keys is determined by its items of
    each key: there is one stable descending sort. *)
Lemma descending_stable_unique l1 l2 :
  StronglySorted descending l1 → StronglySorted descending l2 →
  (∀ k, filter (has_key k) l1 = filter (has_key k) l2) →
  l1 = l2.
Proof.
  intros Hl1. revert l2.
  induction Hl1 as [|x l1 Hl1 IH Hx]; intros l2 Hl2 Hfil.
  - destruct l2 as [|y l2]; [done|].
    specialize (Hfil (key y)). by rewrite filter_cons_True in Hfil.
  - destruct Hl2 as [|y l2 Hl2 Hy].
    { specialize (Hfil (key x)). by rewrite filter_cons_True in Hfil. }
    rewrite Forall_forall in Hx, Hy.
    assert (key x = key y) as Hkey.
    { assert (x ∈ y :: l2) as Hxin.
      { eapply (list_elem_of_filter (has_key (key x))).
        rewrite <-Hfil, filter_cons_True by done. left. }
      assert (y ∈ x :: l1) as Hyin.
      { eapply (list_elem_of_filter (has_key (key y))).
        rewrite Hfil, filter_cons_True by done. left. }
      unfold descending in *.
      inv Hxin; inv Hyin; try done.
      - match goal with Hin : y ∈ l1 |- _ => apply Hx in Hin end.
        match goal with Hin : x ∈ l2 |- _ => apply Hy in Hin end. lia. }
    assert (x = y) as ->.
    { specialize (Hfil (key x)).
      rewrite !filter_cons_True in Hfil by done. congruence. }
    f_equal. apply IH; [done|]. intros k. specialize (Hfil k).
    rewrite !filter_cons in Hfil. destruct (decide (has_key k y)); congruence.
Qed.

End Sorting.

(** ** Strings *)

Lemma append_cons c (s1 s2 : string) : String c s1 +:+ s2 = String c (s1 +:+ s2).
Proof. reflexivity. Qed.

Lemma append_assoc (s1 s2 s3 : string) : (s1 +:+ s2) +:+ s3 = s1 +:+ (s2 +:+ s3).
Proof. induction s1 as [|c s1 IH]; [done|]. by rewrite !append_cons, IH. Qed.

Lemma append_empty_r (s : string) : s +:+ "" = s.
Proof. induction s as [|c s IH]; [done|]. by rewrite append_cons, IH. Qed.

Lemma split_go_not_nil sep skip cur s : split_go sep skip cur s ≠ [].
Proof.
  revert skip cur. induction s as [|c s IH]; intros skip cur; simpl; [done|].
  destruct skip; [|apply IH].
  match goal with |- (if ?b then _ else _) ≠ _ => destruct b end; [done|apply IH].
Qed.

(** A split has at least one item, and the split of the empty string is
    the empty string alone. *)
Lemma split_length_pos sep s : (0 < length (split sep s))%nat.
Proof.
  pose proof (split_go_not_nil sep 0 "" s) as Hne. unfold split.
  destruct (split_go sep 0 "" s); simpl; [done|lia].
Qed.

Lemma split_empty sep : split sep "" = [""].
Proof. done. Qed.

Lemma prefix_append sep s :
  String.prefix sep s = true → ∃ rest, s = sep +:+ rest.
Proof.
  revert s. induction sep as [|a sep IH]; intros s Hpre.
  { by exists s. }
  destruct s as [|c s]; simpl in Hpre; [done|].
  destruct (Ascii.ascii_dec a c) as [->|]; [|done].
  destruct (IH s Hpre) as [rest ->]. by exists rest.
Qed.

Lemma split_go_skip sep pre rest cur :
  split_go sep (String.length pre) cur (pre +:+ rest) = split_go sep 0 cur rest.
Proof. induction pre as [|c pre IH]; [done|]. simpl. by rewrite <-IH. Qed.

Lemma length_append (s1 s2 : string) :
  String.length (s1 +:+ s2) = (String.length s1 + String.length s2)%nat.
Proof. induction s1 as [|c s1 IH]; [done|]. rewrite append_cons. simpl. by rewrite IH. Qed.

Lemma concat_cons sep x l :
  l ≠ [] → String.concat sep (x :: l) = x +:+ sep +:+ String.concat sep l.
Proof. by destruct l. Qed.

Lemma concat_split_go sep n s cur :
  sep ≠ "" → (String.length s ≤ n)%nat →
  String.concat sep (split_go sep 0 cur s) = cur +:+ s.
Proof.
  intros Hsep. revert s cur.
  induction n as [|n IH]; intros [|c s] cur Hlen; simpl in Hlen; try lia.
  1,2: by rewrite append_empty_r.
  change (split_go sep 0 cur (String c s)) with
    (if String.prefix sep (String c s)
     then cur :: split_go sep (Nat.pred (String.length sep)) "" s
     else split_go sep 0 (cur +:+ String c "") s).
  destruct (String.prefix sep (String c s)) eqn:Hpre.
  - apply prefix_append in Hpre as [rest Hrest].
    destruct sep as [|a sep]; [done|].
    rewrite append_cons in Hrest. injection Hrest as -> ->.
    simpl Nat.pred. rewrite split_go_skip.
    rewrite concat_cons by apply split_go_not_nil.
    rewrite IH by (rewrite length_append in Hlen; lia).
    by rewrite append_cons.
  - rewrite IH by lia. by rewrite append_assoc.
Qed.

(** Joining the items of a split with the separator gives the string back:
    [sep.join(s.split(sep)) == s]. *)
Lemma join_split sep s : sep ≠ "" → String.concat sep (split sep s) = s.
Proof. intros Hsep. unfold split. by rewrite (concat_split_go sep (String.length s)). Qed.

(** ** The scoring loop *)

Section ScoringFacts.
Context `{PyRuntime}.
Implicit Types (result : gmap string string) (st : tally) (info : project_info).

(** The geo block, by the shape of the geo binding. *)
Lemma geo_step_absent user_lat user_lon result st :
  result !! "geo" = None → geo_step user_lat user_lon result st = Some st.
Proof. intros Hgeo. unfold geo_step. by rewrite Hgeo. Qed.

Lemma geo_step_not_pair user_lat user_lon result value st :
  result !! "geo" = Some value → length (split "," value) ≠ 2%nat →
  geo_step user_lat user_lon result st = Some st.
Proof.
  intros Hgeo Hlen. unfold geo_step. rewrite Hgeo. simpl.
  destruct (split "," value) as [|lat [|lon [|? ?]]]; done.
Qed.

Lemma geo_step_pair user_lat user_lon result value lat lon st :
  result !! "geo" = Some value → split "," value = [lat; lon] →
  geo_step user_lat user_lon result st =
    distance ← parsed_distance user_lat user_lon result;
    Some (if (distance <=? 5)%float
          then (st.1 + 1, st.2 ++ [distance_reason distance]) else st).
Proof.
  intros Hgeo Hsplit. unfold geo_step, parsed_distance.
  rewrite Hgeo. simpl. rewrite Hsplit.
  destruct (float_of_str user_lat); simpl; [|done].
  destruct (float_of_str user_lon); simpl; [|done].
  destruct (float_of_str lat); simpl; [|done].
  destruct (float_of_str lon); simpl; [|done].
  destruct (calculate_distance _ _ _ _) as [distance|]; simpl; [|done].
  by destruct (distance <=? 5)%float.
Qed.

(** The geo block ends in [continue] exactly when the geo value is a pair
    that gives no distance. *)
Lemma geo_step_None user_lat user_lon result st :
  geo_step user_lat user_lon result st = None ↔ geo_raises user_lat user_lon result.
Proof.
  unfold geo_raises. split.
  - intros Hstep. destruct (result !! "geo") as [value|] eqn:Hgeo.
    2: { by rewrite geo_step_absent in Hstep. }
    destruct (split "," value) as [|lat [|lon [|? ?]]] eqn:Hsplit.
    1,2,4: by rewrite (geo_step_not_pair _ _ _ value) in Hstep by (by rewrite ?Hsplit).
    exists value, lat, lon. split_and!; [done..|].
    rewrite (geo_step_pair _ _ _ value lat lon) in Hstep by done.
    by destruct (parsed_distance _ _ _).
  - intros (value & lat & lon & Hgeo & Hsplit & Hdist).
    rewrite (geo_step_pair _ _ _ value lat lon) by done. by rewrite Hdist.
Qed.

(** What the geo block adds when it does not end the iteration. *)
Lemma geo_step_Some user_lat user_lon result st st' :
  geo_step user_lat user_lon result st = Some st' →
  if within_5km user_lat user_lon result
  then ∃ distance, parsed_distance user_lat user_lon result = Some distance ∧
         st' = (st.1 + 1, st.2 ++ [distance_reason distance])
  else st' = st.
Proof.
  intros Hstep. unfold within_5km.
  destruct (result !! "geo") as [value|] eqn:Hgeo.
  2: { rewrite geo_step_absent in Hstep by done.
       unfold parsed_distance. rewrite Hgeo. simpl. congruence. }
  destruct (split "," value) as [|lat [|lon [|? ?]]] eqn:Hsplit.
  1,2,4: rewrite (geo_step_not_pair _ _ _ value) in Hstep by (by rewrite ?Hsplit);
         unfold parsed_distance; rewrite Hgeo; simpl; rewrite Hsplit; congruence.
  rewrite (geo_step_pair _ _ _ value lat lon) in Hstep by done.
  destruct (parsed_distance _ _ _) as [distance|]; simpl in Hstep; [|done].
  destruct (distance <=? 5)%float; [|congruence].
  exists distance. split; congruence.
Qed.

Lemma facilities_step_items result st :
  facilities_step result st =
    (st.1 + Z.of_nat (length (facility_items result)),
     st.2 ++ map (λ facility, "✨ Có " +:+ facility) (facility_items result)).
Proof.
  unfold facilities_step, facility_items. destruct (result !! "all_facilities").
  - done.
  - simpl. rewrite Z.add_0_r, app_nil_r. by destruct st.
Qed.

Lemma surroundings_step_items result st :
  surroundings_step result st =
    (st.1 + Z.of_nat (length (surrounding_items result)),
     st.2 ++ map (λ surrounding, "🏢 Gần " +:+ surrounding) (surrounding_items result)).
Proof.
  unfold surroundings_step, surrounding_items. destruct (result !! "all_surroundings").
  - done.
  - simpl. rewrite Z.add_0_r, app_nil_r. by destruct st.
Qed.

(** An iteration that appends: the dict it appends. *)
Lemma process_result_Some user_lat user_lon result info :
  process_result user_lat user_lon result = Some info ↔
  ∃ st, geo_step user_lat user_lon result (0, []) = Some st ∧
        info = make_info result (surroundings_step result (facilities_step result st)).
Proof.
  unfold process_result.
  destruct (geo_step _ _ _ _) as [st|]; simpl; split.
  - intros [= <-]. by exists st.
  - intros (st' & [= <-] & ->). done.
  - done.
  - by intros (st' & ? & _).
Qed.

Lemma process_result_None user_lat user_lon result :
  process_result user_lat user_lon result = None ↔ geo_raises user_lat user_lon result.
Proof.
  rewrite <-(geo_step_None _ _ _ (0, [])). unfold process_result.
  by destruct (geo_step _ _ _ _).
Qed.

(** The loop appends the dicts of the iterations that do not [continue],
    in the order of the rows. *)
Lemma fold_loop_body user_lat user_lon bindings acc :
  fold_left (loop_body user_lat user_lon) bindings acc =
  acc ++ omap (process_result user_lat user_lon) bindings.
Proof.
  revert acc. induction bindings as [|result bindings IH]; intros acc; simpl.
  { by rewrite app_nil_r. }
  rewrite IH. unfold loop_body.
  destruct (process_result _ _ result); simpl; [|done].
  by rewrite <-app_assoc.
Qed.

Lemma recommendations_omap user_lat user_lon bindings :
  recommendations user_lat user_lon bindings =
  omap (process_result user_lat user_lon) bindings.
Proof. unfold recommendations. by rewrite fold_loop_body. Qed.

Lemma recommendations_app user_lat user_lon bindings1 bindings2 :
  recommendations user_lat user_lon (bindings1 ++ bindings2) =
  recommendations user_lat user_lon bindings1 ++
  recommendations user_lat user_lon bindings2.
Proof. rewrite !recommendations_omap. apply omap_app. Qed.

End ScoringFacts.

(** ** The score of a recommendation *)

Section ScoreClaims.
Context `{PyRuntime}.
Implicit Types (result : gmap string string) (st : tally) (info : project_info).

(** The score and the reasons read three bindings of the row only. *)
Lemma process_result_score_ext user_lat user_lon result1 result2 :
  result1 !! "geo" = result2 !! "geo" →
  result1 !! "all_facilities" = result2 !! "all_facilities" →
  result1 !! "all_surroundings" = result2 !! "all_surroundings" →
  (λ info, (score info, reasons info)) <$> process_result user_lat user_lon result1 =
  (λ info, (score info, reasons info)) <$> process_result user_lat user_lon result2.
Proof.
  intros Hgeo Hfac Hsur. unfold process_result.
  assert (geo_step user_lat user_lon result1 (0, []) =
          geo_step user_lat user_lon result2 (0, [])) as ->.
  { unfold geo_step. by rewrite Hgeo. }
  destruct (geo_step _ _ result2 _) as [st|]; simpl; [|done].
  unfold facilities_step, surroundings_step. by rewrite Hfac, Hsur.
Qed.

Lemma process_result_score user_lat user_lon result info :
  process_result user_lat user_lon result = Some info →
  score info = (if within_5km user_lat user_lon result then 1 else 0)
               + Z.of_nat (length (facility_items result))
               + Z.of_nat (length (surrounding_items result)).
Proof.
  intros (st & Hgeo & ->)%process_result_Some.
  apply geo_step_Some in Hgeo.
  rewrite surroundings_step_items, facilities_step_items. simpl.
  destruct (within_5km _ _ _); [destruct Hgeo as (? & _ & ->)|subst st]; done.
Qed.

Lemma process_result_reasons user_lat user_lon result info :
  process_result user_lat user_lon result = Some info →
  reasons info =
    match parsed_distance user_lat user_lon result with
    | Some distance => if (distance <=? 5)%float then [distance_reason distance] else []
    | None => []
    end
    ++ map (λ facility, "✨ Có " +:+ facility) (facility_items result)
    ++ map (λ surrounding, "🏢 Gần " +:+ surrounding) (surrounding_items result).
Proof.
  intros (st & Hgeo & ->)%process_result_Some.
  apply geo_step_Some in Hgeo. unfold within_5km in Hgeo.
  rewrite surroundings_step_items, facilities_step_items. simpl.
  rewrite <-app_assoc. f_equal.
  destruct (parsed_distance _ _ _) as [distance|].
  - destruct (distance <=? 5)%float; [|by subst st].
    destruct Hgeo as (? & [= <-] & ->). done.
  - by subst st.
Qed.

(** Every step adds to the score the number of reasons that it appends. *)
Lemma geo_step_tally user_lat user_lon result st st' :
  geo_step user_lat user_lon result st = Some st' → tally_ok st → tally_ok st'.
Proof.
  intros Hstep%geo_step_Some Hok. unfold tally_ok in *.
  destruct (within_5km _ _ _); [|by subst st'].
  destruct Hstep as (distance & _ & ->). simpl. rewrite length_app. simpl. lia.
Qed.

Lemma facilities_step_tally result st :
  tally_ok st → tally_ok (facilities_step result st).
Proof.
  unfold tally_ok. rewrite facilities_step_items. simpl.
  rewrite length_app, length_map. lia.
Qed.

Lemma surroundings_step_tally result st :
  tally_ok st → tally_ok (surroundings_step result st).
Proof.
  unfold tally_ok. rewrite surroundings_step_items. simpl.
  rewrite length_app, length_map. lia.
Qed.

(** The invariant of claim C9 on one iteration: it holds of the empty
    tally, and the three steps keep it. *)
Lemma process_result_reason_count user_lat user_lon result info :
  process_result user_lat user_lon result = Some info →
  score_is_reason_count info.
Proof.
  intros (st & Hgeo & ->)%process_result_Some.
  apply surroundings_step_tally, facilities_step_tally.
  by apply (geo_step_tally _ _ _ _ _ Hgeo).
Qed.

(** C1: a row that the loop appends has a score that is not negative and
    that is 1 when its coordinate parses and lies within 5 km of the
    reference, else 0, plus the number of its facility items, plus the
    number of its surrounding items; setting or removing the price, the
    rooms or the size of the row leaves the score as it is. *)
Theorem score_formula user_lat user_lon result info :
  process_result user_lat user_lon result = Some info →
  0 ≤ score info ∧
  score info = (if within_5km user_lat user_lon result then 1 else 0)
               + Z.of_nat (length (facility_items result))
               + Z.of_nat (length (surrounding_items result)) ∧
  ∀ k v, k ∈ ["price"; "rooms"; "size"] →
    score <$> process_result user_lat user_lon (<[k:=v]> result) = Some (score info) ∧
    score <$> process_result user_lat user_lon (delete k result) = Some (score info).
Proof.
  intros Hinfo. pose proof (process_result_score _ _ _ _ Hinfo) as Hscore.
  split_and!; [|done|].
  { rewrite Hscore. destruct (within_5km _ _ _); lia. }
  intros k v Hk.
  assert (k ≠ "geo" ∧ k ≠ "all_facilities" ∧ k ≠ "all_surroundings") as (? & ? & ?).
  { rewrite !elem_of_cons, elem_of_nil in Hk.
    destruct Hk as [->|[->|[->|[]]]]; done. }
  assert (∀ result', result' !! "geo" = result !! "geo" →
            result' !! "all_facilities" = result !! "all_facilities" →
            result' !! "all_surroundings" = result !! "all_surroundings" →
            score <$> process_result user_lat user_lon result' = Some (score info))
    as Hext.
  { intros result' Hgeo Hfac Hsur.
    pose proof (process_result_score_ext user_lat user_lon _ _ Hgeo Hfac Hsur) as Heq.
    rewrite Hinfo in Heq. simpl in Heq.
    destruct (process_result _ _ result'); simpl in *; congruence. }
  split; apply Hext; by rewrite ?lookup_insert_ne, ?lookup_delete_ne.
Qed.

(** C10: when the facilities binding (or the surroundings binding) of a
    row is present and is the empty string, its split on [", "] is the one
    item [""], not an empty list: the step adds 1 to the score and appends
    the one reason that has an empty item name, and a row that the loop
    appends has that point and that reason. *)
Theorem empty_value_is_one_item (f : items_field) user_lat user_lon result :
  result !! field_key f = Some "" →
  split ", " "" = [""] ∧
  field_items f result = [""] ∧
  (∀ st, field_step f result st = (st.1 + 1, st.2 ++ [field_label f])) ∧
  ∀ info, process_result user_lat user_lon result = Some info →
    score info = (if within_5km user_lat user_lon result then 1 else 0)
                 + Z.of_nat (length (facility_items result))
                 + Z.of_nat (length (surrounding_items result)) ∧
    Z.of_nat (length (field_items f result)) = 1 ∧
    field_label f ∈ reasons info.
Proof.
  intros Hempty.
  assert (field_items f result = [""]) as Hitems.
  { destruct f; simpl in *; unfold facility_items, surrounding_items;
      by rewrite Hempty. }
  split_and!; [done|done| |].
  - intros st. destruct f; simpl in *.
    + by rewrite facilities_step_items, Hitems.
    + by rewrite surroundings_step_items, Hitems.
  - intros info Hinfo. split_and!.
    + by apply process_result_score.
    + by rewrite Hitems.
    + rewrite (process_result_reasons _ _ _ _ Hinfo), !elem_of_app.
      right. destruct f; simpl in *; rewrite Hitems; [left|right]; simpl; left.
Qed.

(** ** Rows that the loop keeps and rows that it drops *)

(** A row whose distance is computed and exceeds 5 km is appended, with no
    point and no reason for the distance. *)
Lemma far_row_kept user_lat user_lon result distance :
  parsed_distance user_lat user_lon result = Some distance →
  (distance <=? 5)%float = false →
  ∃ info, process_result user_lat user_lon result = Some info ∧
    score info = Z.of_nat (length (facility_items result))
                 + Z.of_nat (length (surrounding_items result)) ∧
    reasons info = map (λ facility, "✨ Có " +:+ facility) (facility_items result)
                ++ map (λ surrounding, "🏢 Gần " +:+ surrounding) (surrounding_items result).
Proof.
  intros Hdist Hfar.
  destruct (process_result user_lat user_lon result) as [info|] eqn:Hinfo.
  - exists info. split; [done|].
    rewrite (process_result_score _ _ _ _ Hinfo), (process_result_reasons _ _ _ _ Hinfo).
    unfold within_5km. by rewrite Hdist, Hfar.
  - apply process_result_None in Hinfo as (? & ? & ? & _ & _ & Hnone). congruence.
Qed.

(** A row with no geo binding, or with a geo value that has not two
    components, is appended with the points of its items only. *)
Lemma row_without_pair_kept user_lat user_lon result :
  (∀ value, result !! "geo" = Some value → length (split "," value) ≠ 2%nat) →
  ∃ info, process_result user_lat user_lon result = Some info ∧
    score info = Z.of_nat (length (facility_items result))
                 + Z.of_nat (length (surrounding_items result)) ∧
    reasons info = map (λ facility, "✨ Có " +:+ facility) (facility_items result)
                ++ map (λ surrounding, "🏢 Gần " +:+ surrounding) (surrounding_items result).
Proof.
  intros Hshape.
  assert (parsed_distance user_lat user_lon result = None) as Hdist.
  { unfold parsed_distance. destruct (result !! "geo") as [value|] eqn:Hgeo; [|done].
    simpl. specialize (Hshape value eq_refl).
    by destruct (split "," value) as [|? [|? [|? ?]]]. }
  destruct (process_result user_lat user_lon result) as [info|] eqn:Hinfo.
  - exists info. split; [done|].
    rewrite (process_result_score _ _ _ _ Hinfo), (process_result_reasons _ _ _ _ Hinfo).
    unfold within_5km. by rewrite Hdist.
  - apply process_result_None in Hinfo as (value & ? & ? & Hgeo & Hsplit & _).
    specialize (Hshape value Hgeo). by rewrite Hsplit in Hshape.
Qed.

(** With no geo, no facilities and no surroundings binding the row is
    appended with score 0 and no reason. *)
Lemma bare_row_kept user_lat user_lon result :
  result !! "geo" = None → result !! "all_facilities" = None →
  result !! "all_surroundings" = None →
  ∃ info, process_result user_lat user_lon result = Some info ∧
    score info = 0 ∧ reasons info = [].
Proof.
  intros Hgeo Hfac Hsur.
  destruct (row_without_pair_kept user_lat user_lon result) as (info & Hinfo & Hs & Hr).
  { intros value. by rewrite Hgeo. }
  exists info. unfold facility_items, surrounding_items in *.
  rewrite Hfac, Hsur in *. done.
Qed.

(** A geo value of two components of which one is not a number ends the
    iteration. *)
Lemma geo_raises_not_number user_lat user_lon result value lat lon :
  result !! "geo" = Some value → split "," value = [lat; lon] →
  float_of_str lat = None ∨ float_of_str lon = None →
  geo_raises user_lat user_lon result.
Proof.
  intros Hgeo Hsplit Hnum. exists value, lat, lon. split_and!; [done..|].
  unfold parsed_distance. rewrite Hgeo. simpl. rewrite Hsplit.
  destruct (float_of_str user_lat); simpl; [|done].
  destruct (float_of_str user_lon); simpl; [|done].
  destruct Hnum as [->| ->]; [done|]. by destruct (float_of_str lat).
Qed.

Lemma recommendations_dropped user_lat user_lon result bindings1 bindings2 :
  process_result user_lat user_lon result = None →
  recommendations user_lat user_lon (bindings1 ++ result :: bindings2) =
  recommendations user_lat user_lon (bindings1 ++ bindings2).
Proof.
  intros Hnone. rewrite !recommendations_omap, !omap_app. simpl. by rewrite Hnone.
Qed.

(** C2, on the code: a row whose geo value has two components of which one
    is not a number is dropped by the loop.  The response is the response
    to the rows without it: the row is not scored and not presented. *)
Theorem malformed_geo_drops_row work_latitude work_longitude
    result value lat lon bindings1 bindings2 :
  result !! "geo" = Some value → split "," value = [lat; lon] →
  float_of_str lat = None ∨ float_of_str lon = None →
  process_result (user_lat work_latitude) (user_lon work_longitude) result = None ∧
  run work_latitude work_longitude (inr (bindings1 ++ result :: bindings2)) =
  run work_latitude work_longitude (inr (bindings1 ++ bindings2)).
Proof.
  intros Hgeo Hsplit Hnum.
  assert (process_result (user_lat work_latitude) (user_lon work_longitude) result = None)
    as Hnone by (by eapply process_result_None, geo_raises_not_number).
  split; [done|]. unfold run. by rewrite recommendations_dropped.
Qed.

(** C5, on the code: a row without facilities and surroundings whose geo
    value has two components of which one is not a number has no
    coordinate, and is not in the list that is ranked: alone, it gives the
    response for no recommendation. *)
Theorem unparsed_geo_row_not_ranked work_latitude work_longitude result value lat lon :
  result !! "geo" = Some value → split "," value = [lat; lon] →
  float_of_str lat = None ∨ float_of_str lon = None →
  result !! "all_facilities" = None → result !! "all_surroundings" = None →
  parsed_distance (user_lat work_latitude) (user_lon work_longitude) result = None ∧
  facility_items result = [] ∧ surrounding_items result = [] ∧
  recommendations (user_lat work_latitude) (user_lon work_longitude) [result] = [] ∧
  run work_latitude work_longitude (inr [result]) = NO_RESULTS.
Proof.
  intros Hgeo Hsplit Hnum Hfac Hsur.
  pose proof (geo_raises_not_number (user_lat work_latitude) (user_lon work_longitude)
                _ _ _ _ Hgeo Hsplit Hnum) as Hraises.
  assert (recommendations (user_lat work_latitude) (user_lon work_longitude) [result] = [])
    as Hrecs.
  { rewrite recommendations_omap. simpl.
    by rewrite (proj2 (process_result_None _ _ _) Hraises). }
  split_and!; [by destruct Hraises as (? & ? & ? & _ & _ & ?)| | |done|].
  - unfold facility_items. by rewrite Hfac.
  - unfold surrounding_items. by rewrite Hsur.
  - unfold run. by rewrite Hrecs.
Qed.

End ScoreClaims.

(** ** The response *)

Lemma fold_append_reason reasons (a b : string) :
  fold_left append_reason reasons (a +:+ b) = a +:+ fold_left append_reason reasons b.
Proof.
  revert b. induction reasons as [|reason reasons IH]; intros b; simpl; [done|].
  unfold append_reason at 2 4. by rewrite append_assoc, IH.
Qed.

(** An iteration of the second loop appends the text of its entry. *)
Lemma append_rec_entry response rec :
  append_rec response rec = response +:+ entry_text rec.
Proof.
  unfold entry_text, append_rec. cbv zeta.
  rewrite !(append_assoc response), fold_append_reason, append_assoc.
  done.
Qed.

Lemma fold_append_rec recs response :
  fold_left append_rec recs response = response +:+ entries_text recs.
Proof.
  revert response. induction recs as [|rec recs IH]; intros response; simpl.
  { by rewrite append_empty_r. }
  by rewrite IH, append_rec_entry, append_assoc.
Qed.

(** The response is the notice when nothing was appended, else the header
    and the entries of the first five of the sorted list. *)
Lemma build_response_entries recs :
  build_response recs =
    match recs with
    | [] => NO_RESULTS
    | _ :: _ => HEADER +:+ entries_text (take 5 (list_sort score true recs))
    end.
Proof.
  unfold build_response. rewrite fold_append_rec.
  destruct (list_sort score true recs) as [|rec ranked] eqn:Hsort.
  - by apply list_sort_nil_inv in Hsort as ->.
  - destruct recs; [done|]. done.
Qed.

(** The notice does not start as the header does. *)
Lemma NO_RESULTS_not_header text : NO_RESULTS ≠ HEADER +:+ text.
Proof. vm_compute. discriminate. Qed.

(** ** The sort of the recommendations *)

Lemma filter_sublist_mono {A} (P : A → Prop) `{!∀ x, Decision (P x)} (l1 l2 : list A) :
  l1 `sublist_of` l2 → filter P l1 `sublist_of` filter P l2.
Proof.
  induction 1 as [|x l1 l2 Hsub IH|x l1 l2 Hsub IH]; [done| |].
  - rewrite !filter_cons. destruct (decide (P x)); [by constructor|done].
  - rewrite filter_cons. destruct (decide (P x)); [by constructor|done].
Qed.

(** Two items of one key that follow each other in a list with the same
    items per key as [l] follow each other in [l]. *)
Lemma same_key_order {A} (key : A → Z) (l1 l2 : list A) a b :
  (∀ k, filter (has_key key k) l1 = filter (has_key key k) l2) →
  key a = key b → [a; b] `sublist_of` l1 → [a; b] `sublist_of` l2.
Proof.
  intros Hfil Hkey Hsub.
  apply (filter_sublist_mono (has_key key (key a))) in Hsub.
  rewrite Hfil in Hsub.
  rewrite filter_cons_True, filter_cons_True in Hsub by done.
  etrans; [exact Hsub|apply sublist_filter].
Qed.

(** C3: the sort of the recommendations is a stable sort by descending
    score: the sorted list is a permutation of the list, in descending
    order of the scores, in which the items of each score are in the order
    they had before; so two items of equal score follow each other in the
    sorted list as they did in the list. *)
Theorem ranking_is_stable (recs : list project_info) :
  let ranked := list_sort score true recs in
  ranked ≡ₚ recs ∧
  StronglySorted (descending score) ranked ∧
  (∀ k, filter (has_key score k) ranked = filter (has_key score k) recs) ∧
  (∀ a b, score a = score b →
     [a; b] `sublist_of` ranked ↔ [a; b] `sublist_of` recs).
Proof.
  intros ranked. subst ranked. split_and!.
  - apply list_sort_Permutation.
  - apply list_sort_descending.
  - intros k. apply filter_list_sort.
  - intros a b Hkey. split; apply (same_key_order score); try done.
    + intros k. apply filter_list_sort.
    + intros k. symmetry. apply filter_list_sort.
Qed.

(** Any stable sort by descending score gives the list of [list_sort]. *)
Lemma ranking_determined (recs ranked : list project_info) :
  StronglySorted (descending score) ranked →
  (∀ k, filter (has_key score k) ranked = filter (has_key score k) recs) →
  ranked = list_sort score true recs.
Proof.
  intros Hsorted Hstable. apply (descending_stable_unique score); [done| |].
  - apply list_sort_descending.
  - intros k. by rewrite Hstable, filter_list_sort.
Qed.

Section ResponseClaims.
Context `{PyRuntime}.

Lemma run_reference work_latitude work_longitude bindings :
  run work_latitude work_longitude (inr bindings) =
  build_response
    (recommendations (user_lat work_latitude) (user_lon work_longitude) bindings).
Proof. done. Qed.


(** C6: with no row the response is the notice, which is not a header
    followed by entries. *)
Theorem no_rows_no_results work_latitude work_longitude :
  run work_latitude work_longitude (inr []) = NO_RESULTS ∧
  ∀ text, run work_latitude work_longitude (inr []) ≠ HEADER +:+ text.
Proof.
  split; [done|]. intros text. apply NO_RESULTS_not_header.
Qed.

(** C9: the score of every recommendation is the number of its reasons,
    in the list that the loop builds, in the sorted list and in the five
    items that the response shows. *)
Theorem score_counts_reasons work_latitude work_longitude bindings :
  let recs := recommendations (user_lat work_latitude) (user_lon work_longitude) bindings in
  Forall score_is_reason_count recs ∧
  Forall score_is_reason_count (list_sort score true recs) ∧
  Forall score_is_reason_count (take 5 (list_sort score true recs)).
Proof.
  intros recs.
  assert (Forall score_is_reason_count recs) as Hrecs.
  { subst recs. rewrite recommendations_omap. apply Forall_forall.
    intros info (result & _ & Hinfo)%list_elem_of_omap.
    by eapply process_result_reason_count. }
  assert (Forall score_is_reason_count (list_sort score true recs)) as Hsorted.
  { by rewrite list_sort_Permutation. }
  split_and!; [done..|]. by apply Forall_take.
Qed.

End ResponseClaims.

(** ** The reference coordinates *)



(** ** The model on concrete rows *)

Section Examples.
#[local] Existing Instance Sample.runtime.

Example split_items : split ", " "Pool, Gym" = ["Pool"; "Gym"].
Proof. reflexivity. Qed.

Example split_geo : split "," "10.85,106.79" = ["10.85"; "106.79"].
Proof. reflexivity. Qed.

Example split_three : split "," "1,2,3" = ["1"; "2"; "3"].
Proof. reflexivity. Qed.

Example split_trailing : split ", " "a, b,, c, " = ["a"; "b,"; "c"; ""].
Proof. reflexivity. Qed.

(** The scenario of the specification: A scores 4, B scores 0, and the
    sorted list is A, B. *)
Example scenario_ranking :
  score <$> list_sort score true
    (recommendations "10.848" "106.787" [Sample.row_B; Sample.row_A]) = [4; 0].
Proof. vm_compute. reflexivity. Qed.

(** A geo value of one component: the row is scored. *)
Example one_component_scored :
  score <$> process_result "10.848" "106.787" Sample.row_one = Some 1.
Proof. vm_compute. reflexivity. Qed.

(** The same row with a geo value that is not a pair of numbers: dropped. *)
Example text_geo_dropped :
  process_result "10.848" "106.787" Sample.row_text = None.
Proof. vm_compute. reflexivity. Qed.

(** A row some 100 km away is scored, without the point of the distance. *)
Example far_row_scored :
  (λ info, (score info, reasons info)) <$>
    process_result "10.848" "106.787" Sample.row_far = Some (1, ["✨ Có Pool"]).
Proof. vm_compute. reflexivity. Qed.

(** The score of [row_A]: one point for the distance, two facilities,
    one surrounding. *)
Lemma score_formula_witness :
  let result := Sample.row_A in
  let info := Sample.info_A in
  process_result "10.848" "106.787" result = Some info ∧
  (0 ≤ score info ∧
   score info = (if within_5km "10.848" "106.787" result then 1 else 0)
                + Z.of_nat (length (facility_items result))
                + Z.of_nat (length (surrounding_items result)) ∧
   ∀ k v, k ∈ ["price"; "rooms"; "size"] →
     score <$> process_result "10.848" "106.787" (<[k:=v]> result) = Some (score info) ∧
     score <$> process_result "10.848" "106.787" (delete k result) = Some (score info)).
Proof.
  intros result info.
  assert (process_result "10.848" "106.787" result = Some info) as Hrow
    by (vm_compute; reflexivity).
  split; [exact Hrow|].
  exact (score_formula "10.848" "106.787" result info Hrow).
Defined.

(** The empty facilities binding of [row_empty] counts as one item. *)
Lemma empty_value_is_one_item_witness :
  let result := Sample.row_empty in
  let info := Sample.info_empty in
  result !! field_key Facilities = Some "" ∧
  process_result "10.848" "106.787" result = Some info ∧
  field_items Facilities result = [""] ∧
  facilities_step result (0, []) = (0 + 1, [] ++ ["✨ Có "]) ∧
  score info = 2 ∧
  "✨ Có " ∈ reasons info.
Proof.
  intros result info.
  assert (result !! field_key Facilities = Some "") as Hfac
    by (vm_compute; reflexivity).
  assert (process_result "10.848" "106.787" result = Some info) as Hrow
    by (vm_compute; reflexivity).
  destruct (empty_value_is_one_item Facilities "10.848" "106.787" result Hfac)
    as (_ & Hitems & Hstep & Hinfo).
  destruct (Hinfo info Hrow) as (_ & _ & Hin).
  split; [exact Hfac|]. split; [exact Hrow|]. split; [exact Hitems|].
  split; [exact (Hstep (0, []))|]. split; [reflexivity|exact Hin].
Defined.

(** [row_text] between two rows: the response is that of the two rows. *)
Lemma malformed_geo_drops_row_witness :
  let result := Sample.row_text in
  result !! "geo" = Some "abc,def" ∧
  split "," "abc,def" = ["abc"; "def"] ∧
  float_of_str "abc" = None ∧
  process_result (user_lat None) (user_lon None) result = None ∧
  run None None (inr ([Sample.row_A] ++ result :: [Sample.row_B])) =
  run None None (inr ([Sample.row_A] ++ [Sample.row_B])).
Proof.
  intros result.
  assert (result !! "geo" = Some "abc,def") as Hgeo by (vm_compute; reflexivity).
  assert (split "," "abc,def" = ["abc"; "def"]) as Hsplit by reflexivity.
  assert (float_of_str "abc" = None) as Hnum by (vm_compute; reflexivity).
  repeat (split; [assumption|]).
  exact (malformed_geo_drops_row None None result "abc,def" "abc" "def"
           [Sample.row_A] [Sample.row_B] Hgeo Hsplit (or_introl Hnum)).
Defined.

(** [row_bare_text] alone: nothing is ranked. *)
Lemma unparsed_geo_row_not_ranked_witness :
  let result := Sample.row_bare_text in
  result !! "geo" = Some "abc,def" ∧
  split "," "abc,def" = ["abc"; "def"] ∧
  float_of_str "abc" = None ∧
  result !! "all_facilities" = None ∧
  result !! "all_surroundings" = None ∧
  recommendations (user_lat None) (user_lon None) [result] = [] ∧
  run None None (inr [result]) = NO_RESULTS.
Proof.
  intros result.
  assert (result !! "geo" = Some "abc,def") as Hgeo by (vm_compute; reflexivity).
  assert (split "," "abc,def" = ["abc"; "def"]) as Hsplit by reflexivity.
  assert (float_of_str "abc" = None) as Hnum by (vm_compute; reflexivity).
  assert (result !! "all_facilities" = None) as Hfac by (vm_compute; reflexivity).
  assert (result !! "all_surroundings" = None) as Hsur by (vm_compute; reflexivity).
  repeat (split; [assumption|]).
  destruct (unparsed_geo_row_not_ranked None None result "abc,def" "abc" "def"
              Hgeo Hsplit (or_introl Hnum) Hfac Hsur) as (_ & _ & _ & Hrecs & Hrun).
  split; assumption.
Defined.

End Examples.

(** A slot that holds the empty string is falsy: the default is used. *)
Example empty_slot_defaults : user_lat (Some "") = "10.848".
Proof. reflexivity. Qed.


(** * Further properties of the code *)

(** ** The split of the bindings *)

(** The items of the facilities and of the surroundings, joined with
    [", "], are the value of the binding: the split loses nothing. *)
Theorem items_join_back (result : gmap string string) :
  (∀ value, result !! "all_facilities" = Some value →
     String.concat ", " (facility_items result) = value) ∧
  (∀ value, result !! "all_surroundings" = Some value →
     String.concat ", " (surrounding_items result) = value).
Proof.
  split; intros value Hvalue; unfold facility_items, surrounding_items;
    rewrite Hvalue; by apply join_split.
Qed.

Lemma split_go_comma cur c s :
  split_go "," 0 cur (String c s) =
    if Ascii.ascii_dec COMMA c then cur :: split_go "," 0 "" s
    else split_go "," 0 (cur +:+ String c "") s.
Proof.
  change (split_go "," 0 cur (String c s)) with
    (if String.prefix "," (String c s)
     then cur :: split_go "," (Nat.pred (String.length ",")) "" s
     else split_go "," 0 (cur +:+ String c "") s).
  change (String.prefix "," (String c s)) with
    (match Ascii.ascii_dec COMMA c with
     | left _ => String.prefix "" s
     | right _ => false
     end).
  destruct (Ascii.ascii_dec COMMA c); [|done]. by destruct s.
Qed.

Lemma occurrences_cons a c s :
  occurrences a (String c s) =
    ((if Ascii.ascii_dec a c then 1 else 0) + occurrences a s)%nat.
Proof. reflexivity. Qed.

Lemma split_go_comma_length cur s :
  length (split_go "," 0 cur s) = S (occurrences COMMA s).
Proof.
  revert cur. induction s as [|c s IH]; intros cur; [done|].
  rewrite split_go_comma, occurrences_cons.
  destruct (Ascii.ascii_dec COMMA c); simpl; by rewrite IH.
Qed.

Lemma split_go_comma_free cur s :
  occurrences COMMA s = 0%nat → split_go "," 0 cur s = [cur +:+ s].
Proof.
  revert cur. induction s as [|c s IH]; intros cur Hocc.
  { simpl. by rewrite append_empty_r. }
  rewrite split_go_comma. rewrite occurrences_cons in Hocc.
  destruct (Ascii.ascii_dec COMMA c); [done|].
  rewrite IH by done. by rewrite append_assoc.
Qed.

Lemma split_go_comma_first cur s1 s2 :
  occurrences COMMA s1 = 0%nat →
  split_go "," 0 cur (s1 +:+ "," +:+ s2) = (cur +:+ s1) :: split_go "," 0 "" s2.
Proof.
  revert cur. induction s1 as [|c s1 IH]; intros cur Hocc.
  { change ("" +:+ "," +:+ s2) with (String COMMA s2).
    rewrite split_go_comma, append_empty_r.
    by destruct (Ascii.ascii_dec COMMA COMMA). }
  rewrite append_cons, split_go_comma. rewrite occurrences_cons in Hocc.
  destruct (Ascii.ascii_dec COMMA c); [done|].
  rewrite IH by done. by rewrite append_assoc.
Qed.

Lemma occurrences_append a s1 s2 :
  occurrences a (s1 +:+ s2) = (occurrences a s1 + occurrences a s2)%nat.
Proof.
  induction s1 as [|c s1 IH]; [done|].
  rewrite append_cons, !occurrences_cons, IH. lia.
Qed.

(** The geo value has as many components as it has commas, plus one; it
    has the two components [lat] and [lon] exactly when it is [lat], a
    comma and [lon], with no comma in [lat] and none in [lon]. *)
Theorem geo_pair_one_comma (value lat lon : string) :
  length (split "," value) = S (occurrences COMMA value) ∧
  (split "," value = [lat; lon] ↔
     value = lat +:+ "," +:+ lon ∧
     occurrences COMMA lat = 0%nat ∧ occurrences COMMA lon = 0%nat).
Proof.
  split; [apply split_go_comma_length|]. split.
  - intros Hsplit.
    assert (value = lat +:+ "," +:+ lon) as Hvalue.
    { rewrite <-(join_split "," value), Hsplit by done. done. }
    split; [done|].
    pose proof (split_go_comma_length "" value) as Hlen.
    unfold split in Hsplit. rewrite Hsplit in Hlen. simpl in Hlen.
    rewrite Hvalue, !occurrences_append in Hlen.
    change (occurrences COMMA ",") with
      ((if Ascii.ascii_dec COMMA COMMA then 1 else 0) + 0)%nat in Hlen.
    destruct (Ascii.ascii_dec COMMA COMMA); [|done]. lia.
  - intros (-> & Hlat & Hlon). unfold split.
    rewrite split_go_comma_first by done.
    by rewrite split_go_comma_free.
Qed.

(** ** The rows *)

Section RowFacts.
Context `{PyRuntime}.
Implicit Types (result : gmap string string) (st : tally) (info : project_info).

Local Ltac read_key Hagree k :=
  let Hk := fresh "Hk" in
  assert (k ∈ read_keys) as Hk by (unfold read_keys; set_solver);
  apply Hagree in Hk.

(** Two rows with the same bindings under the keys that are read give the
    same iteration. *)
Lemma process_result_agree user_lat user_lon result1 result2 :
  (∀ k, k ∈ read_keys → result1 !! k = result2 !! k) →
  process_result user_lat user_lon result1 = process_result user_lat user_lon result2.
Proof.
  intros Hagree.
  read_key Hagree "geo". read_key Hagree "all_facilities".
  read_key Hagree "all_surroundings". read_key Hagree "project_name".
  read_key Hagree "type_name". read_key Hagree "ward_name".
  read_key Hagree "area_name". read_key Hagree "region_name".
  read_key Hagree "price". read_key Hagree "rooms". read_key Hagree "size".
  unfold process_result, geo_step, facilities_step, surroundings_step,
    make_info, get_value.
  repeat match goal with Heq : result1 !! _ = result2 !! _ |- _ => rewrite Heq; clear Heq end.
  done.
Qed.

(** A binding under a key that the loop does not read (the toilets, the
    images, the investor, ...) does not show: setting it or removing it, in
    one row or in all, leaves the iteration and the response as they are. *)
Theorem unread_bindings_ignored k v work_latitude work_longitude
    (bindings : list (gmap string string)) :
  k ∉ read_keys →
  (∀ user_lat user_lon result,
     process_result user_lat user_lon (<[k:=v]> result) =
       process_result user_lat user_lon result ∧
     process_result user_lat user_lon (delete k result) =
       process_result user_lat user_lon result) ∧
  run work_latitude work_longitude (inr ((<[k:=v]>) <$> bindings)) =
    run work_latitude work_longitude (inr bindings) ∧
  run work_latitude work_longitude (inr (delete k <$> bindings)) =
    run work_latitude work_longitude (inr bindings).
Proof.
  intros Hk.
  assert (∀ user_lat user_lon result,
     process_result user_lat user_lon (<[k:=v]> result) =
       process_result user_lat user_lon result ∧
     process_result user_lat user_lon (delete k result) =
       process_result user_lat user_lon result) as Hrow.
  { intros user_lat user_lon result.
    split; apply process_result_agree; intros k' Hk'.
    - apply lookup_insert_ne. by intros ->.
    - apply lookup_delete_ne. by intros ->. }
  split; [done|].
  unfold run. rewrite !recommendations_omap.
  split; f_equal; induction bindings as [|result bindings IH]; csimpl; try done.
  - by rewrite (proj1 (Hrow _ _ result)), IH.
  - by rewrite (proj2 (Hrow _ _ result)), IH.
Qed.

(** A row that is appended without the point of the distance (its geo
    value has not two components, or gives a distance of more than 5 km,
    or a distance that is not a number) gives the dict that it gives
    without its geo binding. *)
Theorem geo_without_point_ignored user_lat user_lon result info :
  process_result user_lat user_lon result = Some info →
  within_5km user_lat user_lon result = false →
  process_result user_lat user_lon (delete "geo" result) = Some info.
Proof.
  intros (st & Hgeo & ->)%process_result_Some Hfar.
  apply geo_step_Some in Hgeo. rewrite Hfar in Hgeo. subst st.
  apply process_result_Some. exists (0, []). split.
  { apply geo_step_absent, lookup_delete_eq. }
  unfold facilities_step, surroundings_step, make_info, get_value.
  by rewrite !lookup_delete_ne.
Qed.

(** The reasons of a recommendation, in order: the reason of the distance
    when the row is within 5 km, one reason for each facility in the order
    of the binding, then one for each surrounding. *)
Theorem reasons_in_order user_lat user_lon result info :
  process_result user_lat user_lon result = Some info →
  ∃ near,
    near = match parsed_distance user_lat user_lon result with
           | Some distance =>
               if (distance <=? 5)%float then [distance_reason distance] else []
           | None => []
           end ∧
    Z.of_nat (length near) = (if within_5km user_lat user_lon result then 1 else 0) ∧
    reasons info =
      near ++ ((λ facility, "✨ Có " +:+ facility) <$> facility_items result)
           ++ ((λ surrounding, "🏢 Gần " +:+ surrounding) <$> surrounding_items result).
Proof.
  intros Hinfo. eexists. split; [done|]. split.
  - unfold within_5km. destruct (parsed_distance _ _ _) as [distance|]; [|done].
    by destruct (distance <=? 5)%float.
  - by apply process_result_reasons.
Qed.

(** The rows that the loop drops: those whose geo value has two
    components, when one of the two reference strings or one of the two
    components is not a number for [float], or when [math] raises while
    the distance is computed.  Nothing else drops a row. *)
Theorem row_dropped_iff user_lat user_lon result :
  process_result user_lat user_lon result = None ↔
  ∃ value lat lon,
    result !! "geo" = Some value ∧ split "," value = [lat; lon] ∧
    (float_of_str user_lat = None ∨ float_of_str user_lon = None ∨
     float_of_str lat = None ∨ float_of_str lon = None ∨
     ∃ ulat ulon flat flon,
       float_of_str user_lat = Some ulat ∧ float_of_str user_lon = Some ulon ∧
       float_of_str lat = Some flat ∧ float_of_str lon = Some flon ∧
       calculate_distance ulat ulon flat flon = None).
Proof.
  rewrite process_result_None. unfold geo_raises.
  split; intros (value & lat & lon & Hgeo & Hsplit & Hcause);
    exists value, lat, lon; (split_and!; [done..|]);
    unfold parsed_distance in *; rewrite Hgeo in *; simpl in *; rewrite Hsplit in *.
  - destruct (float_of_str user_lat) as [ulat|]; [|by left].
    destruct (float_of_str user_lon) as [ulon|]; [|by right; left].
    destruct (float_of_str lat) as [flat|]; [|by right; right; left].
    destruct (float_of_str lon) as [flon|]; [|by right; right; right; left].
    right; right; right; right. by exists ulat, ulon, flat, flon.
  - destruct Hcause as
      [->|[->|[->|[->|(ulat & ulon & flat & flon & -> & -> & -> & -> & Hmath)]]]];
      simpl; try done.
    + by destruct (float_of_str user_lat).
    + destruct (float_of_str user_lat); [|done]. by destruct (float_of_str user_lon).
    + destruct (float_of_str user_lat); [|done].
      destruct (float_of_str user_lon); [|done]. by destruct (float_of_str lat).
Qed.

(** A reference string that is not a number drops every row whose geo
    value has two components, also one whose components are numbers. *)
Theorem bad_reference_drops_pairs work_latitude work_longitude result value lat lon :
  float_of_str (user_lat work_latitude) = None ∨
  float_of_str (user_lon work_longitude) = None →
  result !! "geo" = Some value → split "," value = [lat; lon] →
  process_result (user_lat work_latitude) (user_lon work_longitude) result = None.
Proof.
  intros Hbad Hgeo Hsplit. apply process_result_None.
  exists value, lat, lon. split_and!; [done..|].
  unfold parsed_distance. rewrite Hgeo. simpl. rewrite Hsplit.
  destruct Hbad as [->| ->]; [done|].
  by destruct (float_of_str (user_lat work_latitude)).
Qed.

(** A row that is appended with a facilities binding or a surroundings
    binding has a score of 1 at least and a reason, whatever the value of
    the binding: the split of a string is never empty. *)
Theorem listed_row_scores user_lat user_lon result info value :
  process_result user_lat user_lon result = Some info →
  result !! "all_facilities" = Some value ∨ result !! "all_surroundings" = Some value →
  1 ≤ score info ∧ reasons info ≠ [].
Proof.
  intros Hinfo Hlisted.
  pose proof (process_result_reason_count _ _ _ _ Hinfo) as Hcount.
  assert (1 ≤ score info) as Hscore.
  { rewrite (process_result_score _ _ _ _ Hinfo).
    unfold facility_items, surrounding_items.
    destruct Hlisted as [-> | ->];
      pose proof (split_length_pos ", " value);
      destruct (within_5km _ _ _); repeat case_match; lia. }
  split; [done|]. intros Hnil. unfold score_is_reason_count in Hcount.
  rewrite Hnil in Hcount. simpl in Hcount. lia.
Qed.

End RowFacts.

(** ** The loop and the response *)

Lemma omap_nil_Forall {A B} (f : A → option B) (l : list A) :
  omap f l = [] ↔ Forall (λ x, f x = None) l.
Proof.
  induction l as [|x l IH]; csimpl; [by split; [constructor|]|].
  rewrite Forall_cons, <-IH. destruct (f x); simpl.
  - split; [done|]. by intros [? _].
  - split; [done|]. by intros [_ ?].
Qed.

Lemma length_omap_le {A B} (f : A → option B) (l : list A) :
  (length (omap f l) ≤ length l)%nat.
Proof.
  induction l as [|x l IH]; csimpl; [done|].
  destruct (f x); simpl; lia.
Qed.

Lemma ERROR_not_NO_RESULTS e : ERROR_PREFIX +:+ e ≠ NO_RESULTS.
Proof. vm_compute. discriminate. Qed.

Lemma ERROR_not_header e text : ERROR_PREFIX +:+ e ≠ HEADER +:+ text.
Proof. vm_compute. discriminate. Qed.

Section LoopFacts.
Context `{PyRuntime}.

(** The iterations do not depend on each other: the list built from two
    batches one after the other is the list of the first followed by the
    list of the second.  A row gives one dict at most, and every dict
    comes from a row. *)
Theorem loop_rows_independent user_lat user_lon
    (bindings1 bindings2 : list (gmap string string)) :
  recommendations user_lat user_lon (bindings1 ++ bindings2) =
    recommendations user_lat user_lon bindings1 ++
    recommendations user_lat user_lon bindings2 ∧
  (length (recommendations user_lat user_lon bindings1) ≤ length bindings1)%nat ∧
  ∀ info, info ∈ recommendations user_lat user_lon bindings1 →
    ∃ result, result ∈ bindings1 ∧ process_result user_lat user_lon result = Some info.
Proof.
  split_and!.
  - apply recommendations_app.
  - rewrite recommendations_omap. apply length_omap_le.
  - intros info. rewrite recommendations_omap. by intros ?%list_elem_of_omap.
Qed.

(** The response is the notice exactly when every row is dropped; with a
    row that is not, it starts with the header. *)
Theorem no_results_iff_all_dropped work_latitude work_longitude
    (bindings : list (gmap string string)) :
  let dropped result :=
    process_result (user_lat work_latitude) (user_lon work_longitude) result = None in
  (run work_latitude work_longitude (inr bindings) = NO_RESULTS ↔
     Forall dropped bindings) ∧
  (¬ Forall dropped bindings →
     ∃ text, run work_latitude work_longitude (inr bindings) = HEADER +:+ text).
Proof.
  intros dropped. rewrite run_reference, build_response_entries.
  assert (recommendations (user_lat work_latitude) (user_lon work_longitude) bindings = []
          ↔ Forall dropped bindings) as Hnil.
  { rewrite recommendations_omap. apply omap_nil_Forall. }
  destruct (recommendations _ _ _) as [|rec recs]; split.
  - split; [intros _; by apply Hnil|done].
  - intros Hnot. destruct Hnot. by apply Hnil.
  - split.
    + intros Hheader. symmetry in Hheader.
      by apply NO_RESULTS_not_header in Hheader.
    + intros Hall. by apply Hnil in Hall.
  - intros _. by eexists.
Qed.

(** The response to a failed fetch is not the response to any rows, with
    any reference. *)
Theorem error_response_distinct e work_latitude work_longitude
    work_latitude' work_longitude' (bindings : list (gmap string string)) :
  run work_latitude work_longitude (inl e) ≠
  run work_latitude' work_longitude' (inr bindings).
Proof.
  rewrite run_reference, build_response_entries. simpl.
  destruct (recommendations _ _ _).
  - apply ERROR_not_NO_RESULTS.
  - apply ERROR_not_header.
Qed.

(** With five rows at most, every recommendation is shown. *)
Theorem five_rows_all_shown work_latitude work_longitude
    (bindings : list (gmap string string)) :
  (length bindings ≤ 5)%nat →
  let recs := recommendations (user_lat work_latitude) (user_lon work_longitude) bindings in
  take 5 (list_sort score true recs) = list_sort score true recs ∧
  take 5 (list_sort score true recs) ≡ₚ recs.
Proof.
  intros Hlen recs.
  assert (take 5 (list_sort score true recs) = list_sort score true recs) as ->.
  { apply take_ge. rewrite (list_sort_Permutation score true recs).
    subst recs. rewrite recommendations_omap.
    pose proof (length_omap_le
      (process_result (user_lat work_latitude) (user_lon work_longitude)) bindings).
    lia. }
  split; [done|apply list_sort_Permutation].
Qed.

End LoopFacts.

(** ** The sort, on the recommendations *)

(** The five recommendations that are shown and the ones that are not make
    up the list; none that is not shown has a higher score than one that
    is, and the first of the sorted list has the highest score of all. *)
Theorem shown_are_best (recs : list project_info) :
  let ranked := list_sort score true recs in
  let shown := take 5 ranked in
  let hidden := drop 5 ranked in
  shown ++ hidden ≡ₚ recs ∧
  (∀ a b, a ∈ shown → b ∈ hidden → score b ≤ score a) ∧
  (∀ first rest, ranked = first :: rest → ∀ c, c ∈ recs → score c ≤ score first).
Proof.
  intros ranked shown hidden.
  pose proof (list_sort_descending score recs) as Hsorted. fold ranked in Hsorted.
  split_and!.
  - subst shown hidden. rewrite take_drop. apply list_sort_Permutation.
  - intros a b Ha Hb. rewrite <-(take_drop 5 ranked) in Hsorted.
    apply (StronglySorted_app_1_elem_of _ _ _ a b Hsorted Ha Hb).
  - intros first rest Hranked c Hc. rewrite Hranked in Hsorted.
    apply StronglySorted_cons in Hsorted as [Hfirst _].
    assert (c ∈ first :: rest) as Hin.
    { rewrite <-Hranked. subst ranked. by rewrite list_sort_Permutation. }
    apply elem_of_cons in Hin as [->|Hin]; [done|].
    rewrite Forall_forall in Hfirst. by apply Hfirst.
Qed.

(** A list that is in descending order of the scores is left as it is; so
    sorting twice is sorting once. *)
Theorem sort_keeps_descending (recs : list project_info) :
  StronglySorted (descending score) recs →
  list_sort score true recs = recs ∧
  list_sort score true (list_sort score true recs) = list_sort score true recs.
Proof.
  intros Hsorted. split.
  - symmetry. by apply ranking_determined.
  - symmetry. apply ranking_determined; [apply list_sort_descending|done].
Qed.

(** ** The reference strings *)

(** The reference strings are never empty, and a reference that is read
    back as a slot is kept. *)
Theorem reference_never_empty (work_latitude work_longitude : option string) :
  user_lat work_latitude ≠ "" ∧ user_lon work_longitude ≠ "" ∧
  user_lat (Some (user_lat work_latitude)) = user_lat work_latitude ∧
  user_lon (Some (user_lon work_longitude)) = user_lon work_longitude.
Proof.
  unfold user_lat, user_lon, py_or.
  destruct work_latitude as [[|? ?]|], work_longitude as [[|? ?]|]; done.
Qed.

(** ** The further properties on concrete rows *)

Section MoreExamples.
#[local] Existing Instance Sample.runtime.

(** The toilets of [row_A] do not show in the response. *)
Lemma unread_bindings_ignored_witness :
  ("toilets" ∉ read_keys) ∧
  process_result "10.848" "106.787" Sample.row_A_toilets =
    process_result "10.848" "106.787" Sample.row_A ∧
  run None None (inr ((<["toilets":="2"]>) <$> [Sample.row_A; Sample.row_B])) =
    run None None (inr [Sample.row_A; Sample.row_B]).
Proof.
  assert ("toilets" ∉ read_keys) as Hk.
  { unfold read_keys. rewrite !not_elem_of_cons. repeat split; try discriminate.
    apply not_elem_of_nil. }
  destruct (unread_bindings_ignored "toilets" "2" None None
              [Sample.row_A; Sample.row_B] Hk) as (Hrow & Hrun & _).
  split; [exact Hk|]. split; [|exact Hrun].
  exact (proj1 (Hrow "10.848" "106.787" Sample.row_A)).
Defined.

(** [row_far] is appended as it is without its geo binding. *)
Lemma geo_without_point_ignored_witness :
  process_result "10.848" "106.787" Sample.row_far = Some Sample.info_far ∧
  within_5km "10.848" "106.787" Sample.row_far = false ∧
  process_result "10.848" "106.787" (delete "geo" Sample.row_far) = Some Sample.info_far.
Proof.
  assert (process_result "10.848" "106.787" Sample.row_far = Some Sample.info_far)
    as Hrow by (vm_compute; reflexivity).
  assert (within_5km "10.848" "106.787" Sample.row_far = false)
    as Hfar by (vm_compute; reflexivity).
  split; [exact Hrow|]. split; [exact Hfar|].
  exact (geo_without_point_ignored "10.848" "106.787" Sample.row_far Sample.info_far
           Hrow Hfar).
Defined.

(** The reasons of [row_A]: the distance, the two facilities, the
    surrounding. *)
Lemma reasons_in_order_witness :
  process_result "10.848" "106.787" Sample.row_A = Some Sample.info_A ∧
  ∃ near,
    Z.of_nat (length near) = 1 ∧
    reasons Sample.info_A = near ++ ["✨ Có Pool"; "✨ Có Gym"] ++ ["🏢 Gần Park"].
Proof.
  assert (process_result "10.848" "106.787" Sample.row_A = Some Sample.info_A)
    as Hrow by (vm_compute; reflexivity).
  split; [exact Hrow|].
  destruct (reasons_in_order "10.848" "106.787" Sample.row_A Sample.info_A Hrow)
    as (near & _ & Hlen & Hreasons).
  exists near. split; [exact Hlen|exact Hreasons].
Defined.

(** With a latitude slot that is not a number, [row_A] is dropped. *)
Lemma bad_reference_drops_pairs_witness :
  float_of_str (user_lat (Some "north")) = None ∧
  Sample.row_A !! "geo" = Some "10.85,106.79" ∧
  split "," "10.85,106.79" = ["10.85"; "106.79"] ∧
  process_result (user_lat (Some "north")) (user_lon None) Sample.row_A = None.
Proof.
  assert (float_of_str (user_lat (Some "north")) = None) as Hbad
    by (vm_compute; reflexivity).
  assert (Sample.row_A !! "geo" = Some "10.85,106.79") as Hgeo
    by (vm_compute; reflexivity).
  assert (split "," "10.85,106.79" = ["10.85"; "106.79"]) as Hsplit by reflexivity.
  split; [exact Hbad|]. split; [exact Hgeo|]. split; [exact Hsplit|].
  exact (bad_reference_drops_pairs (Some "north") None Sample.row_A
           "10.85,106.79" "10.85" "106.79" (or_introl Hbad) Hgeo Hsplit).
Defined.

(** [row_empty], with its empty facilities binding, has a score and a
    reason. *)
Lemma listed_row_scores_witness :
  process_result "10.848" "106.787" Sample.row_empty = Some Sample.info_empty ∧
  Sample.row_empty !! "all_facilities" = Some "" ∧
  1 ≤ score Sample.info_empty ∧ reasons Sample.info_empty ≠ [].
Proof.
  assert (process_result "10.848" "106.787" Sample.row_empty = Some Sample.info_empty)
    as Hrow by (vm_compute; reflexivity).
  assert (Sample.row_empty !! "all_facilities" = Some "") as Hfac
    by (vm_compute; reflexivity).
  split; [exact Hrow|]. split; [exact Hfac|].
  exact (listed_row_scores "10.848" "106.787" Sample.row_empty Sample.info_empty ""
           Hrow (or_introl Hfac)).
Defined.

(** Two rows: both recommendations are shown. *)
Lemma five_rows_all_shown_witness :
  let bindings := [Sample.row_B; Sample.row_A] in
  let recs := recommendations (user_lat None) (user_lon None) bindings in
  (length bindings ≤ 5)%nat ∧
  take 5 (list_sort score true recs) = list_sort score true recs ∧
  take 5 (list_sort score true recs) ≡ₚ recs.
Proof.
  intros bindings recs.
  assert ((length bindings ≤ 5)%nat) as Hlen by (simpl; lia).
  split; [exact Hlen|].
  exact (five_rows_all_shown None None bindings Hlen).
Defined.

End MoreExamples.

(** A list of two recommendations of scores 4 and 2 is left as it is. *)
Lemma sort_keeps_descending_witness :
  StronglySorted (descending score) Sample.infos_sorted ∧
  list_sort score true Sample.infos_sorted = Sample.infos_sorted ∧
  list_sort score true (list_sort score true Sample.infos_sorted) =
    list_sort score true Sample.infos_sorted.
Proof.
  assert (StronglySorted (descending score) Sample.infos_sorted) as Hsorted.
  { unfold Sample.infos_sorted. repeat constructor. unfold descending. simpl. lia. }
  split; [exact Hsorted|].
  exact (sort_keeps_descending Sample.infos_sorted Hsorted).
Defined.

(** ** The distance of two points on opposite sides of the globe *)

(** C7, on the code: the distance is not returned for all finite inputs.
    For the finite coordinates (-7.36, 57.3173) and (7.36, -122.6827), with
    the values that the C library returns for the two sines, the two
    cosines and the two squares, the sum [a] of the body is rounded to
    1.0000000000000002, [1 - a] is negative and [math.sqrt] raises
    [ValueError]: the function returns no distance. *)
Theorem calculate_distance_raises `{PyRuntime} :
  libm_sin Antipodal.half_dlat = Antipodal.SIN_HALF_DLAT →
  libm_sin Antipodal.half_dlon = Antipodal.SIN_HALF_DLON →
  libm_cos (math.radians Antipodal.lat1) = Antipodal.COS_LAT →
  libm_cos (math.radians Antipodal.lat2) = Antipodal.COS_LAT →
  libm_pow Antipodal.SIN_HALF_DLAT 2 = Antipodal.SQUARE_SIN_HALF_DLAT →
  libm_pow Antipodal.SIN_HALF_DLON 2 = Antipodal.SQUARE_SIN_HALF_DLON →
  is_finite Antipodal.lat1 = true ∧ is_finite Antipodal.lon1 = true ∧
  is_finite Antipodal.lat2 = true ∧ is_finite Antipodal.lon2 = true ∧
  math.sqrt (1 - (Antipodal.SQUARE_SIN_HALF_DLAT +
                  Antipodal.COS_LAT * Antipodal.COS_LAT *
                  Antipodal.SQUARE_SIN_HALF_DLON))%float = None ∧
  calculate_distance Antipodal.lat1 Antipodal.lon1 Antipodal.lat2 Antipodal.lon2 = None.
Proof.
  intros Hsin1 Hsin2 Hcos1 Hcos2 Hpow1 Hpow2.
  split_and!; [by vm_compute..|].
  unfold calculate_distance, math.sin, math.cos, math.pow2, math.math_1.
  cbv zeta.
  fold Antipodal.half_dlat Antipodal.half_dlon.
  rewrite Hsin1, Hsin2, Hcos1, Hcos2.
  replace (is_nan Antipodal.SIN_HALF_DLAT) with false by (by vm_compute).
  replace (is_infinity Antipodal.SIN_HALF_DLAT) with false by (by vm_compute).
  replace (is_nan Antipodal.SIN_HALF_DLON) with false by (by vm_compute).
  replace (is_infinity Antipodal.SIN_HALF_DLON) with false by (by vm_compute).
  replace (is_nan Antipodal.COS_LAT) with false by (by vm_compute).
  replace (is_infinity Antipodal.COS_LAT) with false by (by vm_compute).
  simpl. rewrite Hpow1, Hpow2.
  by vm_compute.
Qed.

(** The runtime that has the values of the C library at the six calls. *)
Lemma calculate_distance_raises_witness :
  @libm_sin Antipodal.runtime Antipodal.half_dlat = Antipodal.SIN_HALF_DLAT ∧
  @libm_sin Antipodal.runtime Antipodal.half_dlon = Antipodal.SIN_HALF_DLON ∧
  @libm_cos Antipodal.runtime (math.radians Antipodal.lat1) = Antipodal.COS_LAT ∧
  @libm_cos Antipodal.runtime (math.radians Antipodal.lat2) = Antipodal.COS_LAT ∧
  @libm_pow Antipodal.runtime Antipodal.SIN_HALF_DLAT 2 = Antipodal.SQUARE_SIN_HALF_DLAT ∧
  @libm_pow Antipodal.runtime Antipodal.SIN_HALF_DLON 2 = Antipodal.SQUARE_SIN_HALF_DLON ∧
  @calculate_distance Antipodal.runtime
    Antipodal.lat1 Antipodal.lon1 Antipodal.lat2 Antipodal.lon2 = None.
Proof.
  assert (@libm_sin Antipodal.runtime Antipodal.half_dlat = Antipodal.SIN_HALF_DLAT)
    as Hsin1 by (vm_compute; reflexivity).
  assert (@libm_sin Antipodal.runtime Antipodal.half_dlon = Antipodal.SIN_HALF_DLON)
    as Hsin2 by (vm_compute; reflexivity).
  assert (@libm_cos Antipodal.runtime (math.radians Antipodal.lat1) = Antipodal.COS_LAT)
    as Hcos1 by (vm_compute; reflexivity).
  assert (@libm_cos Antipodal.runtime (math.radians Antipodal.lat2) = Antipodal.COS_LAT)
    as Hcos2 by (vm_compute; reflexivity).
  assert (@libm_pow Antipodal.runtime Antipodal.SIN_HALF_DLAT 2 =
          Antipodal.SQUARE_SIN_HALF_DLAT) as Hpow1 by (vm_compute; reflexivity).
  assert (@libm_pow Antipodal.runtime Antipodal.SIN_HALF_DLON 2 =
          Antipodal.SQUARE_SIN_HALF_DLON) as Hpow2 by (vm_compute; reflexivity).
  repeat (split; [assumption|]).
  exact (proj2 (proj2 (proj2 (proj2 (proj2
    (@calculate_distance_raises Antipodal.runtime
       Hsin1 Hsin2 Hcos1 Hcos2 Hpow1 Hpow2)))))).
Defined.

(** In the loop: with the first point as the reference, a row at the
    second point is dropped, though its coordinates are numbers. *)
Example antipodal_row_dropped :
  @process_result Antipodal.runtime "-7.36" "57.3173"
    {[ "geo" := "7.36,-122.6827"; "all_facilities" := "Pool" ]} = None.
Proof. vm_compute. reflexivity. Qed.
